(** * adhoc-fetch: [retrieve] over the /records endpoint

    A shallow embedding of [src/api/managed-records.js] and the properties
    of its request construction and response shaping.

    Modelling choices.
    - A JavaScript number is an integer or [NaN]. Fractional and infinite
      doubles are no values of the model, and the model's arithmetic is
      exact where the code's rounds from 2^53 on: a statement on the result
      of [page + 1], [page - 1] or [(page - 1) * limit] carries the bound
      under which both agree ([safe_integer], [exact_page], [small_page]).
    - [retrieve] is the function called on [undefined] or on an object;
      [retrieve_call] is the call on any argument.
    - The options object is read only through its keys ["page"] and
      ["colors"]; a key that is absent is [None], a key that is present
      holds a value ([undefined] and [null] included).
    - A promise is modelled by the way it settles; [console.log] appends to
      an explicit console. *)

From Stdlib Require Import ZArith List String Bool Lia.
From Stdlib Require Import DecimalString DecimalZ.
Import ListNotations.
Open Scope string_scope.
Open Scope Z_scope.
Open Scope list_scope.

(** ** JavaScript numbers and the operators the source applies to [page] *)

Module Js.

Inductive number : Type :=
| Int (z : Z)
| NaN.

(** The values [options.page] is allowed to hold in this model. *)
Inductive value : Type :=
| Undefined
| Null
| Boolean (b : bool)
| Number (n : number).

(** ECMAScript [ToNumber] on the primitives above. *)
Definition to_number (v : value) : number :=
  match v with
  | Undefined => NaN
  | Null => Int 0
  | Boolean true => Int 1
  | Boolean false => Int 0
  | Number n => n
  end.

Definition lift2 (op : Z -> Z -> Z) (a b : number) : number :=
  match a, b with
  | Int x, Int y => Int (op x y)
  | _, _ => NaN
  end.

(** [a - b], [a * b] and (no operand being a string) [a + b]. *)
Definition sub (a b : value) : number := lift2 Z.sub (to_number a) (to_number b).
Definition mul (a b : value) : number := lift2 Z.mul (to_number a) (to_number b).
Definition add (a b : value) : number := lift2 Z.add (to_number a) (to_number b).

(** [a === b] against a number literal: no conversion takes place. *)
Definition strict_eq_num (a : value) (k : Z) : bool :=
  match a with
  | Number (Int z) => Z.eqb z k
  | _ => false
  end.

(** [ToBoolean]. *)
Definition truthy_number (n : number) : bool :=
  match n with
  | Int z => negb (Z.eqb z 0)
  | NaN => false
  end.

Definition truthy (v : value) : bool :=
  match v with
  | Undefined | Null => false
  | Boolean b => b
  | Number n => truthy_number n
  end.

(** [n || d] on numbers. *)
Definition or_else (n d : number) : number :=
  if truthy_number n then n else d.

(** [String(n)] for the numbers of the model: the decimal digits, which is
    what the code prints for an integer below 2^53 in magnitude. *)
Definition number_to_string (n : number) : string :=
  match n with
  | Int z => NilZero.string_of_int (Z.to_int z)
  | NaN => "NaN"
  end.

(** [Array.prototype.splice(start, deleteCount)] for a start that is not
    negative: the array after the call. Both bounds are clamped to the
    length, which [firstn] and [skipn] do. *)
Definition splice {A : Type} (start deleteCount : nat) (l : list A) : list A :=
  firstn start l ++ skipn (start + deleteCount) l.

(** [Array.prototype.includes] on strings. *)
Definition includes (l : list string) (s : string) : bool :=
  existsb (String.eqb s) l.

End Js.

(** ** Data model (the typedefs of lines 9-32) *)

Record RecordObject : Type := {
  id : Z;
  color : string;
  disposition : string
}.

(** [RecordObject & IsPrimary]: the object built by
    [{...record, isPrimary: ...}]. *)
Record Open : Type := {
  record :> RecordObject;
  isPrimary : bool
}.

(** [null] is [None]. *)
Record RetrievePayload : Type := {
  ids : list Z;
  open : list Open;
  closedPrimaryCount : nat;
  previousPage : option Js.number;
  nextPage : option Js.number
}.

(** What [options.colors] may hold. *)
Inductive colors_value : Type :=
| ColorsUndefined
| ColorsNull
| ColorsArray (l : list string).

(** The options object: [None] for a key that is not [in] it. *)
Record Options : Type := {
  options_page : option Js.value;
  options_colors : option colors_value
}.

(** The object literal of line 53. *)
Definition empty_options : Options :=
  {| options_page := None; options_colors := None |}.

(** ** The URI builder

    [urijs] is an external package, no part of the sources. Of it the
    program uses [URI(path)], [addSearch(name, value)] and [toString()]. *)

Module URI.

(** The parts of a URI the program touches: the path it starts from and
    the parameters added to its query, in the order they were added. *)
Record t : Type := {
  path : string;
  query : list (string * string)
}.

Definition URI (p : string) : t := {| path := p; query := [] |}.

(** The second argument of [addSearch]: a scalar, or an array. *)
Inductive search_value : Type :=
| Scalar (n : Js.number)
| Repeated (l : list string).

(** Modelled from the spec: [addSearch] of [urijs], which the spec describes
    as encoding scalar keys and repeated keys into the query. A scalar adds
    one parameter, an array one parameter per element, in order. What the
    package does with a value that occurs twice is not modelled. *)
Definition addSearch (u : t) (name : string) (v : search_value) : t :=
  match v with
  | Scalar n =>
      {| path := path u; query := query u ++ [(name, Js.number_to_string n)] |}
  | Repeated l =>
      {| path := path u; query := query u ++ map (fun s => (name, s)) l |}
  end.

Definition parameter (kv : string * string) : string :=
  (fst kv ++ "=" ++ snd kv)%string.

(** Modelled from the spec: the query string of [urijs], of the shape
    [limit=..&offset=..&color[]=c1&color[]=c2] that the spec gives and that
    line 63 shows. Percent-encoding of reserved characters is not
    modelled. *)
Definition buildQuery (q : list (string * string)) : string :=
  String.concat "&" (map parameter q).

(** Modelled from the spec: [toString] of [urijs], the path followed by
    [?] and the query string when there is one. *)
Definition toString (u : t) : string :=
  match query u with
  | [] => path u
  | _ => (path u ++ "?" ++ buildQuery (query u))%string
  end.

End URI.

(** ** Promises and the console *)

Inductive error : Type :=
| Error (message : string)     (* [new Error(message)] *)
| TypeError                    (* thrown by the engine *)
| Failure (reason : string).   (* a rejection that comes from the transport *)

Inductive settled (A : Type) : Type :=
| Fulfilled (a : A)
| Rejected (e : error).
Arguments Fulfilled {A} a.
Arguments Rejected {A} e.

(** What [console.log] has printed so far. *)
Definition console : Type := list error.

Definition Promise (A : Type) : Type := console -> settled A * console.

Definition settle {A : Type} (s : settled A) : Promise A := fun c => (s, c).
Definition resolve {A : Type} (a : A) : Promise A := settle (Fulfilled a).
Definition reject {A : Type} (e : error) : Promise A := settle (Rejected e).

(** [p.then(f)]: [f] returns a value or a promise ([resolve], [settle]) or
    throws ([reject]). *)
Definition then_ {A B : Type} (p : Promise A) (f : A -> Promise B) : Promise B :=
  fun c =>
    match p c with
    | (Fulfilled a, c') => f a c'
    | (Rejected e, c') => (Rejected e, c')
    end.

(** [p.catch(h)]: the value of [p], or the value the handler returns. *)
Definition catch_ {A B : Type} (p : Promise A) (h : error -> Promise B)
  : Promise (A + B) :=
  fun c =>
    match p c with
    | (Fulfilled a, c') => (Fulfilled (inl a), c')
    | (Rejected e, c') =>
        match h e c' with
        | (Fulfilled b, c'') => (Fulfilled (inr b), c'')
        | (Rejected e', c'') => (Rejected e', c'')
        end
    end.

(** [console.log(err)] prints and returns [undefined]. *)
Definition undefined : unit := tt.
Definition console_log (err : error) : Promise unit :=
  fun c => (Fulfilled undefined, c ++ [err]).

(** ** The transport *)

(** The decoded body, [res.json()]: an array of records, [null], or
    another JSON value that is no array. *)
Inductive json_value : Type :=
| JsonArray (data : list RecordObject)
| JsonNull
| JsonOther.

Record Response : Type := {
  ok : bool;
  status : Z;
  json : settled json_value
}.

(** ** The program *)

(** [window.path], line 5. *)
Definition window_path : string := "http://localhost:3000/records".

(** Lines 39-41. *)
Definition isPrimaryColor (color : string) : bool :=
  Js.includes ["red"; "blue"; "yellow"] color.

(** Line 60. *)
Definition limit : nat := 10.

(** Lines 52-56: the defaults of the two options. *)
Definition colors_of (options : option Options) : colors_value :=
  let options := match options with None => empty_options | Some o => o end in
  match options_colors options with
  | Some c => c
  | None => ColorsArray []
  end.

Definition page_of (options : option Options) : Js.value :=
  let options := match options with None => empty_options | Some o => o end in
  match options_page options with
  | Some p => p
  | None => Js.Number (Js.Int 1)
  end.

(** Line 66: [(page - 1) * limit || 0]. *)
Definition offset (page : Js.value) : Js.number :=
  Js.or_else
    (Js.mul (Js.Number (Js.sub page (Js.Number (Js.Int 1))))
            (Js.Number (Js.Int (Z.of_nat limit))))
    (Js.Int 0).

(** Line 68: [if (colors)]; an array is truthy, also when it is empty. *)
Definition colors_truthy (colors : colors_value) : bool :=
  match colors with
  | ColorsUndefined | ColorsNull => false
  | ColorsArray _ => true
  end.

(** Lines 64-70. A [colors] that is truthy is an array, which is handed
    to [addSearch] as it is. *)
Definition requestURI (page : Js.value) (colors : colors_value) : URI.t :=
  let requestURI := URI.URI window_path in
  let requestURI :=
    URI.addSearch requestURI "limit" (URI.Scalar (Js.Int (Z.of_nat limit + 1))) in
  let requestURI := URI.addSearch requestURI "offset" (URI.Scalar (offset page)) in
  if colors_truthy colors then
    match colors with
    | ColorsArray l => URI.addSearch requestURI "color[]" (URI.Repeated l)
    | _ => requestURI
    end
  else requestURI.

(** Line 71. *)
Definition URL (page : Js.value) (colors : colors_value) : string :=
  URI.toString (requestURI page colors).

(** Line 78: the message of the error thrown on a status that is not ok. *)
Definition failure_message (status : Z) : string :=
  ("Fetching /records failed with: " ++ Js.number_to_string (Js.Int status))%string.

(** Lines 74-80, the first [then] callback. Returning [res.json()] makes
    the chain settle as that promise does. *)
Definition on_response (res : Response) : Promise json_value :=
  if ok res then settle (json res)
  else reject (Error (failure_message (status res))).

(** Lines 89-91. *)
Definition recordsWithPrimary (data : list RecordObject) : list Open :=
  map (fun record =>
         {| record := record; isPrimary := isPrimaryColor (color record) |})
      data.

(** Lines 82-105: the payload built from the page and the array [data],
    which [splice] has changed in place before it is read again. *)
Definition payload (page : Js.value) (data : list RecordObject) : RetrievePayload :=
  let previousPage :=
    if Js.strict_eq_num page 1 then None
    else Some (Js.sub page (Js.Number (Js.Int 1))) in
  let nextPage :=
    if (10 <? List.length data)%nat then Some (Js.add page (Js.Number (Js.Int 1)))
    else None in
  let data := Js.splice limit 1 data in
  let recordsWithPrimary := recordsWithPrimary data in
  {| ids := map (fun record => id record) data;
     open := filter (fun record : Open => String.eqb (disposition record) "open")
                    recordsWithPrimary;
     closedPrimaryCount :=
       List.length (filter (fun record : Open =>
                         String.eqb (disposition record) "closed"
                         && isPrimary record)
                      recordsWithPrimary);
     previousPage := previousPage;
     nextPage := nextPage |}.

(** Lines 81-108, the second [then] callback. On [null], reading
    [data.length] throws; on any other value that is no array,
    [data.splice] is no function and the call throws. *)
Definition on_data (page : Js.value) (data : json_value) : Promise RetrievePayload :=
  match data with
  | JsonArray data => resolve (payload page data)
  | JsonNull => reject TypeError
  | JsonOther => reject TypeError
  end.

Section Retrieve.

(** The transport, [fetch] of [../util/fetch-fill]: how the promise it
    returns for a URL settles. *)
Variable fetch : string -> settled Response.

(** Lines 73-108: the chain before [catch]. *)
Definition request (options : option Options) : Promise RetrievePayload :=
  let colors := colors_of options in
  let page := page_of options in
  then_ (then_ (settle (fetch (URL page colors))) on_response) (on_data page).

(** Lines 50-110. The promise holds the payload ([inl]) or the
    [undefined] that the handler of [catch] returns ([inr]). *)
Definition retrieve (options : option Options) : Promise (RetrievePayload + unit) :=
  catch_ (request options) console_log.

End Retrieve.

(** What [retrieve] may be called with. *)
Inductive argument : Type :=
| ArgUndefined             (* no argument, or [undefined] *)
| ArgNull
| ArgPrimitive             (* a number, a string or a boolean *)
| ArgObject (o : Options).

(** A call returns a promise, or throws before it returns one. *)
Inductive call (A : Type) : Type :=
| Returns (p : Promise A)
| Throws (e : error).
Arguments Returns {A} p.
Arguments Throws {A} e.

(** Lines 50-56 on any argument. Line 52 replaces [undefined] alone by
    [{}]; on [null] or on a primitive, ["colors" in options] of line 55
    throws a TypeError, before the chain and its [catch] exist. *)
Definition retrieve_call (fetch : string -> settled Response)
    (options : argument) : call (RetrievePayload + unit) :=
  match options with
  | ArgUndefined => Returns (retrieve fetch None)
  | ArgObject o => Returns (retrieve fetch (Some o))
  | ArgNull => Throws TypeError
  | ArgPrimitive => Throws TypeError
  end.

(** The argument that stands for options given as [undefined] or as an
    object. *)
Definition argument_of (options : option Options) : argument :=
  match options with
  | None => ArgUndefined
  | Some o => ArgObject o
  end.

(** ** Where the model's arithmetic is the code's *)

(** [Number.isSafeInteger]: below 2^53 in magnitude. On a safe integer
    [page + 1] and [page - 1] are exact in the code. *)
Definition safe_integer (z : Z) : Prop :=
  - 9007199254740992 < z < 9007199254740992.

(** The page values on which the offset of the model is the offset of the
    code: [undefined], [null], a boolean, [NaN], or an integer whose
    product [(page - 1) * 10] is a safe integer. *)
Definition exact_page (page : Js.value) : Prop :=
  match page with
  | Js.Number (Js.Int z) => safe_integer ((z - 1) * 10)
  | _ => True
  end.

(** Below 2^49 in magnitude: the page, its two neighbours and the offsets
    of all three are safe integers. *)
Definition small_page (p : Z) : Prop :=
  - 562949953421312 < p < 562949953421312.

(** ** The spec's words, for comparison with the code *)

(** A primary colour: one of red, blue, yellow. *)
Definition primary (c : string) : Prop :=
  c = "red" \/ c = "blue" \/ c = "yellow".

(** A record of the page, annotated with its classification. *)
Definition classified (r : RecordObject) : Open :=
  {| record := r; isPrimary := isPrimaryColor (color r) |}.

Definition is_open (r : RecordObject) : bool := String.eqb (disposition r) "open".

Definition is_closed_primary (r : RecordObject) : bool :=
  String.eqb (disposition r) "closed" && isPrimaryColor (color r).

(** The spec's [open]: the open records, then their annotation. *)
Definition open_of (page_records : list RecordObject) : list Open :=
  map classified (filter is_open page_records).

(** The spec's count of closed records with a primary colour. *)
Fixpoint closed_primary_count_of (page_records : list RecordObject) : nat :=
  match page_records with
  | [] => 0%nat
  | r :: rest =>
      if is_closed_primary r then S (closed_primary_count_of rest)
      else closed_primary_count_of rest
  end.

(** The request, in the spec's words. *)


(** The page was left out: no options at all, or options without the key. *)
Definition page_omitted (options : option Options) : Prop :=
  forall o, options = Some o -> options_page o = None.


(** ** Sample inputs *)

Definition mk (i : Z) (c d : string) : RecordObject :=
  {| id := i; color := c; disposition := d |}.

Definition page_number (p : Z) : Js.value := Js.Number (Js.Int p).

Definition with_page (p : Js.value) : option Options :=
  Some {| options_page := Some p; options_colors := None |}.

Definition with_colors (l : list string) : option Options :=
  Some {| options_page := None; options_colors := Some (ColorsArray l) |}.

Definition eleven : list RecordObject :=
  [ mk 1 "red" "open"; mk 2 "brown" "closed"; mk 3 "blue" "closed";
    mk 4 "yellow" "open"; mk 5 "green" "open"; mk 6 "red" "closed";
    mk 7 "brown" "open"; mk 8 "blue" "open"; mk 9 "green" "closed";
    mk 10 "yellow" "closed"; mk 11 "red" "open" ].

Definition serving (data : list RecordObject) : string -> settled Response :=
  fun _ => Fulfilled {| ok := true; status := 200; json := Fulfilled (JsonArray data) |}.

Definition failing (code : Z) : string -> settled Response :=
  fun _ => Fulfilled {| ok := false; status := code; json := Rejected (Failure "no body") |}.

Definition twelve : list RecordObject := eleven ++ [mk 12 "blue" "closed"].

(** ** The endpoint, as the comments of lines 59-63 describe it *)

(** The number of records an [offset] parameter asks to skip. *)
Definition records_to_skip (n : Js.number) : nat :=
  match n with
  | Js.Int z => Z.to_nat z
  | Js.NaN => 0%nat
  end.

(** What an endpoint that holds [records] (those that pass the colour
    filter, in its order) answers to the request for [page]: it skips
    [offset] records and returns at most [limit + 1] of the following. *)
Definition served (records : list RecordObject) (page : Js.value)
  : list RecordObject :=
  firstn (limit + 1) (skipn (records_to_skip (offset page)) records).

(** The ids handed out for the pages 1 to [k], one page after the other. *)
Fixpoint walk (records : list RecordObject) (k : nat) : list Z :=
  match k with
  | O => []
  | S k' =>
      walk records k'
      ++ ids (payload (page_number (Z.of_nat (S k')))
                      (served records (page_number (Z.of_nat (S k')))))
  end.

(** * Properties *)

(** ** Rendering of numbers *)

Example number_to_string_11 : Js.number_to_string (Js.Int 11) = "11".
Proof. reflexivity. Qed.

Example number_to_string_neg10 : Js.number_to_string (Js.Int (-10)) = "-10".
Proof. reflexivity. Qed.

Example number_to_string_0 : Js.number_to_string (Js.Int 0) = "0".
Proof. reflexivity. Qed.

(** ** Scenarios of the spec, run on the model *)

Example scenario_A :
  exists p,
    retrieve (serving eleven) (with_page (page_number 1)) [] = (Fulfilled (inl p), [])
    /\ nextPage p = Some (Js.Int 2)
    /\ previousPage p = None
    /\ ids p = [1; 2; 3; 4; 5; 6; 7; 8; 9; 10]
    /\ closedPrimaryCount p = 3%nat.
Proof. eexists; repeat split; reflexivity. Qed.

Example scenario_B :
  exists p,
    retrieve (serving (firstn 5 eleven)) (with_page (page_number 2)) []
    = (Fulfilled (inl p), [])
    /\ nextPage p = None
    /\ previousPage p = Some (Js.Int 1).
Proof. eexists; repeat split; reflexivity. Qed.

Example scenario_C :
  closedPrimaryCount
    (payload (page_number 1) [mk 1 "red" "closed"; mk 2 "brown" "closed"]) = 1%nat.
Proof. reflexivity. Qed.

Example scenario_D :
  retrieve (failing 500) None []
  = (Fulfilled (inr undefined), [Error "Fetching /records failed with: 500"]).
Proof. reflexivity. Qed.

Example scenario_E :
  URL (page_of (with_colors ["red"; "blue"])) (colors_of (with_colors ["red"; "blue"]))
  = "http://localhost:3000/records?limit=11&offset=0&color[]=red&color[]=blue".
Proof. reflexivity. Qed.

(** ** Lemmas on [splice] *)

Section Splice.

Context {A : Type}.
Implicit Types (l : list A) (start i : nat).

Lemma splice_length_short start l :
  (List.length l <= start)%nat -> Js.splice start 1 l = l.
Proof.
  intros Hlen. unfold Js.splice.
  rewrite firstn_all2 by lia.
  rewrite skipn_all2 by lia.
  apply app_nil_r.
Qed.

Lemma splice_length_long start l :
  (start < List.length l)%nat ->
  List.length (Js.splice start 1 l) = (List.length l - 1)%nat.
Proof.
  intros Hlen. unfold Js.splice.
  rewrite length_app, length_firstn, length_skipn. lia.
Qed.

Lemma splice_removes start l x :
  nth_error l start = Some x ->
  l = firstn start l ++ x :: skipn (start + 1) l
  /\ Js.splice start 1 l = firstn start l ++ skipn (start + 1) l.
Proof.
  intros Hx. split; [| reflexivity].
  rewrite <- (firstn_skipn start l) at 1. f_equal.
  replace (start + 1)%nat with (S start) by lia.
  revert l Hx. induction start as [| n IH]; intros [| y l] Hx; simpl in *;
    try discriminate.
  - now inversion Hx.
  - now apply IH.
Qed.

Lemma splice_nth_before start l i :
  (i < start)%nat -> nth_error (Js.splice start 1 l) i = nth_error l i.
Proof.
  intros Hi. unfold Js.splice.
  destruct (Nat.lt_ge_cases i (List.length l)) as [Hl | Hl].
  - rewrite nth_error_app1 by (rewrite length_firstn; lia).
    rewrite nth_error_firstn.
    now rewrite (proj2 (Nat.ltb_lt i start) Hi).
  - transitivity (@None A).
    + apply nth_error_None.
      rewrite length_app, length_firstn, length_skipn. lia.
    + symmetry. now apply nth_error_None.
Qed.

Lemma splice_nth_after start l i :
  (start <= i)%nat -> nth_error (Js.splice start 1 l) i = nth_error l (S i).
Proof.
  intros Hi. unfold Js.splice.
  destruct (Nat.lt_ge_cases start (List.length l)) as [Hl | Hl].
  - rewrite nth_error_app2 by (rewrite length_firstn; lia).
    rewrite length_firstn, nth_error_skipn. f_equal. lia.
  - transitivity (@None A).
    + apply nth_error_None.
      rewrite length_app, length_firstn, length_skipn. lia.
    + symmetry. apply nth_error_None. lia.
Qed.

Lemma splice_sentinel start l x :
  List.length l = start -> Js.splice start 1 (l ++ [x]) = l.
Proof.
  intros Hlen. unfold Js.splice.
  rewrite firstn_app, skipn_app.
  rewrite firstn_all2 by lia.
  rewrite (skipn_all2 l) by lia.
  replace (start - List.length l)%nat with 0%nat by lia.
  replace (start + 1 - List.length l)%nat with 1%nat by lia.
  simpl. now rewrite !app_nil_r.
Qed.

End Splice.

(** ** The code's payload fields against the spec's *)

Lemma isPrimaryColor_primary c : isPrimaryColor c = true <-> primary c.
Proof.
  unfold isPrimaryColor, Js.includes, primary. simpl.
  rewrite !orb_true_iff, !String.eqb_eq. intuition discriminate.
Qed.

Lemma recordsWithPrimary_classified data :
  recordsWithPrimary data = map classified data.
Proof. reflexivity. Qed.

Lemma open_of_trimmed page data :
  open (payload page data) = open_of (Js.splice limit 1 data).
Proof.
  unfold payload, open_of. simpl.
  generalize (Js.splice limit 1 data) as l.
  induction l as [| r l IH]; simpl; [reflexivity |].
  unfold is_open at 1.
  destruct (String.eqb (disposition r) "open"); simpl; now rewrite IH.
Qed.

Lemma closedPrimaryCount_of_trimmed page data :
  closedPrimaryCount (payload page data)
  = closed_primary_count_of (Js.splice limit 1 data).
Proof.
  unfold payload. simpl.
  generalize (Js.splice limit 1 data) as l.
  induction l as [| r l IH]; simpl; [reflexivity |].
  unfold is_closed_primary at 1.
  destruct (String.eqb (disposition r) "closed" && isPrimaryColor (color r));
    simpl; now rewrite IH.
Qed.

Lemma ids_of_trimmed page data :
  ids (payload page data) = map id (Js.splice limit 1 data).
Proof. reflexivity. Qed.

Lemma closed_primary_count_of_app l1 l2 :
  closed_primary_count_of (l1 ++ l2)
  = (closed_primary_count_of l1 + closed_primary_count_of l2)%nat.
Proof.
  induction l1 as [| r l1 IH]; simpl; [reflexivity |].
  destruct (is_closed_primary r); simpl; now rewrite IH.
Qed.

Lemma open_of_app l1 l2 : open_of (l1 ++ l2) = open_of l1 ++ open_of l2.
Proof. unfold open_of. now rewrite filter_app, map_app. Qed.

(** ** Pagination cursors *)

(** C2. For a page [p] that is a safe integer, [nextPage] is [p + 1] when
    the array as received has more than 10 elements; whatever the page, it
    is [null] when the array has at most 10. The test reads the length
    before the array is trimmed: for 11 records the page that is handed out
    has 10 ids and [nextPage] is present all the same. *)
Theorem nextPage_from_untrimmed_length (page : Js.value) (p : Z)
    (data : list RecordObject) :
  safe_integer p ->
  ((10 < List.length data)%nat ->
     nextPage (payload (page_number p) data) = Some (Js.Int (p + 1)))
  /\ ((List.length data <= 10)%nat -> nextPage (payload page data) = None)
  /\ (List.length data = 11%nat ->
        List.length (ids (payload page data)) = 10%nat
        /\ nextPage (payload page data) <> None).
Proof.
  intros _.
  unfold payload; cbn [nextPage ids]. split; [| split].
  - intros H. apply Nat.ltb_lt in H. rewrite H. reflexivity.
  - intros H. apply Nat.ltb_ge in H. now rewrite H.
  - intros H. split.
    + rewrite length_map, splice_length_long; unfold limit; lia.
    + rewrite H. discriminate.
Qed.

Lemma nextPage_from_untrimmed_length_witness :
  nextPage (payload (page_number 1) eleven) = Some (Js.Int 2).
Proof.
  apply (proj1 (nextPage_from_untrimmed_length (page_number 1) 1 eleven
                  ltac:(unfold safe_integer; lia))).
  simpl. lia.
Defined.

(** C5. For a page [p >= 2] that is a safe integer, [previousPage] is
    [p - 1]; for page 1 it is [null]; whatever the page value,
    [previousPage] is the same for any two response arrays. *)
Theorem previousPage_from_page_only (p : Z) (data : list RecordObject) :
  safe_integer p ->
  (2 <= p -> previousPage (payload (page_number p) data) = Some (Js.Int (p - 1)))
  /\ previousPage (payload (page_number 1) data) = None
  /\ (forall (page : Js.value) (data' : list RecordObject),
        previousPage (payload page data) = previousPage (payload page data')).
Proof.
  intros _. repeat split.
  intros Hp. unfold payload, page_number; simpl.
  destruct (Z.eqb_spec p 1) as [-> | _]; [lia | reflexivity].
Qed.

Lemma previousPage_from_page_only_witness :
  previousPage (payload (page_number 2) eleven) = Some (Js.Int 1).
Proof.
  apply (proj1 (previousPage_from_page_only 2 eleven
                  ltac:(unfold safe_integer; lia))).
  lia.
Defined.

(** ** Trimming *)

(** C3. When the array as received has at most 11 records, the payload has
    at most 10 ids; when it has 11, the fields [ids], [open] and
    [closedPrimaryCount] are those of its first 10 records, so the 11th
    record reaches none of them. *)
Theorem sentinel_never_exposed (page : Js.value) (data : list RecordObject) :
  (List.length data <= 11)%nat ->
  (List.length (ids (payload page data)) <= 10)%nat
  /\ (List.length data = 11%nat ->
        exists sentinel,
          data = firstn 10 data ++ [sentinel]
          /\ ids (payload page data) = map id (firstn 10 data)
          /\ open (payload page data) = open_of (firstn 10 data)
          /\ closedPrimaryCount (payload page data)
             = closed_primary_count_of (firstn 10 data)).
Proof.
  intros Hmax. split.
  - rewrite ids_of_trimmed, length_map.
    destruct (Nat.lt_ge_cases limit (List.length data)) as [Hl | Hl].
    + rewrite splice_length_long by exact Hl. lia.
    + rewrite splice_length_short by exact Hl. exact Hl.
  - intros Hlen.
    destruct (nth_error data 10) as [sentinel |] eqn:Hnth.
    2: { apply nth_error_None in Hnth. lia. }
    destruct (splice_removes 10 data sentinel Hnth) as [Hdata Htrim].
    assert (Hrest : skipn (10 + 1) data = []) by (apply skipn_all2; lia).
    rewrite Hrest in Hdata, Htrim. rewrite app_nil_r in Htrim.
    exists sentinel. split; [exact Hdata |].
    rewrite ids_of_trimmed, open_of_trimmed, closedPrimaryCount_of_trimmed.
    unfold limit. rewrite Htrim. repeat split.
Qed.

Lemma sentinel_never_exposed_witness :
  (List.length (ids (payload (page_number 1) eleven)) <= 10)%nat.
Proof.
  apply (proj1 (sentinel_never_exposed (page_number 1) eleven ltac:(simpl; lia))).
Defined.

(** C10. [splice(limit, 1)] takes out the element at index 10 when there is
    one and nothing else: an array of at most 10 records is unchanged, a
    longer one loses exactly that element. So from 12 records on the payload
    has [n - 1] ids, more than 10, and a record at an index beyond 10 has its
    id in [ids] one place earlier, is in [open] when it is open, and is
    counted in [closedPrimaryCount]. *)
Theorem splice_removes_one_element (page : Js.value) (data : list RecordObject) :
  ((List.length data <= 10)%nat -> Js.splice limit 1 data = data)
  /\ ((10 < List.length data)%nat ->
        exists x,
          nth_error data 10 = Some x
          /\ data = firstn 10 data ++ x :: skipn 11 data
          /\ Js.splice limit 1 data = firstn 10 data ++ skipn 11 data
          /\ List.length (Js.splice limit 1 data) = (List.length data - 1)%nat)
  /\ ((12 <= List.length data)%nat ->
        List.length (ids (payload page data)) = (List.length data - 1)%nat
        /\ (10 < List.length (ids (payload page data)))%nat
        /\ closedPrimaryCount (payload page data)
           = (closed_primary_count_of (firstn 10 data)
              + closed_primary_count_of (skipn 11 data))%nat
        /\ forall (i : nat) (r : RecordObject),
             (10 < i)%nat -> nth_error data i = Some r ->
             nth_error (ids (payload page data)) (i - 1) = Some (id r)
             /\ (disposition r = "open" -> In (classified r) (open (payload page data)))).
Proof.
  split; [| split].
  - intros Hlen. now apply splice_length_short.
  - intros Hlen.
    destruct (nth_error data 10) as [x |] eqn:Hnth.
    2: { apply nth_error_None in Hnth. lia. }
    destruct (splice_removes 10 data x Hnth) as [Hdata Htrim].
    exists x. repeat split; try assumption.
    apply splice_length_long. unfold limit. lia.
  - intros Hlen.
    rewrite ids_of_trimmed, closedPrimaryCount_of_trimmed, open_of_trimmed, length_map.
    rewrite splice_length_long by (unfold limit; lia).
    split; [lia |]. split; [lia |]. split.
    + unfold Js.splice, limit. now rewrite closed_primary_count_of_app.
    + intros i r Hi Hr.
      assert (Hprev : nth_error (Js.splice limit 1 data) (i - 1) = Some r).
      { rewrite splice_nth_after by (unfold limit; lia).
        replace (S (i - 1)) with i by lia. exact Hr. }
      split.
      * now rewrite nth_error_map, Hprev.
      * intros Hopen. unfold open_of. apply in_map, filter_In. split.
        -- now apply nth_error_In with (n := (i - 1)%nat).
        -- unfold is_open. now apply String.eqb_eq.
Qed.

Lemma splice_removes_one_element_witness :
  List.length (ids (payload (page_number 1) twelve)) = 11%nat
  /\ closedPrimaryCount (payload (page_number 1) twelve) = 4%nat.
Proof.
  destruct (splice_removes_one_element (page_number 1) twelve)
    as [_ [_ Hlong]].
  destruct (Hlong ltac:(simpl; lia)) as [Hids [_ [Hcount _]]].
  split; [exact Hids | exact Hcount].
Defined.

(** ** Classification *)

(** C8. [open] holds the open records of the trimmed array and no other,
    in the order of the array, each with [isPrimary] set exactly when its
    colour is red, blue or yellow; brown and green are not primary. *)
Theorem open_records_classified (page : Js.value) (data : list RecordObject) :
  open (payload page data)
  = map classified (filter is_open (Js.splice limit 1 data))
  /\ (forall r : RecordObject,
        In r (Js.splice limit 1 data) /\ disposition r = "open"
        <-> exists o, In o (open (payload page data)) /\ record o = r)
  /\ (forall o : Open,
        In o (open (payload page data)) ->
        disposition o = "open" /\ (isPrimary o = true <-> primary (color o)))
  /\ isPrimaryColor "brown" = false
  /\ isPrimaryColor "green" = false.
Proof.
  rewrite open_of_trimmed. unfold open_of.
  split; [reflexivity |]. split; [| split; [| split; reflexivity]].
  - intros r. split.
    + intros [Hin Hopen]. exists (classified r). split; [| reflexivity].
      apply in_map, filter_In. split; [exact Hin |].
      unfold is_open. now apply String.eqb_eq.
    + intros [o [Hin Hr]].
      apply in_map_iff in Hin. destruct Hin as [r' [Ho Hin]].
      apply filter_In in Hin. destruct Hin as [Hin Hopen].
      subst o. simpl in Hr. subst r'.
      split; [exact Hin |]. now apply String.eqb_eq.
  - intros o Hin.
    apply in_map_iff in Hin. destruct Hin as [r [Ho Hin]].
    apply filter_In in Hin. destruct Hin as [_ Hopen].
    subst o. simpl. split.
    + now apply String.eqb_eq.
    + apply isPrimaryColor_primary.
Qed.

Lemma open_records_classified_witness :
  disposition (classified (mk 1 "red" "open")) = "open"
  /\ (isPrimary (classified (mk 1 "red" "open")) = true <-> primary "red").
Proof.
  destruct (open_records_classified (page_number 1) eleven) as [_ [_ [Hflag _]]].
  apply (Hflag (classified (mk 1 "red" "open"))).
  simpl. left. reflexivity.
Defined.

(** C9. [closedPrimaryCount] is the number of records of the trimmed array
    that are closed and whose colour is red, blue or yellow. *)
Theorem closedPrimaryCount_counts (page : Js.value) (data : list RecordObject) :
  closedPrimaryCount (payload page data)
  = closed_primary_count_of (Js.splice limit 1 data)
  /\ (forall r : RecordObject,
        is_closed_primary r = true
        <-> disposition r = "closed" /\ primary (color r)).
Proof.
  split; [apply closedPrimaryCount_of_trimmed |].
  intros r. unfold is_closed_primary.
  now rewrite andb_true_iff, String.eqb_eq, isPrimaryColor_primary.
Qed.

(** ** The request *)

Lemma offset_of_integer (p : Z) : offset (page_number p) = Js.Int ((p - 1) * 10).
Proof.
  unfold offset, page_number, Js.or_else. simpl.
  destruct (Z.eqb_spec ((p - 1) * 10) 0) as [Hz | Hz]; simpl.
  - now rewrite Hz.
  - reflexivity.
Qed.

Lemma requestURI_query (page : Js.value) (colors : colors_value) :
  URI.query (requestURI page colors)
  = ("limit", "11") :: ("offset", Js.number_to_string (offset page))
    :: map (fun c => ("color[]", c))
           (match colors with ColorsArray l => l | _ => [] end).
Proof. destruct colors; reflexivity. Qed.



(** C6, the claim as stated, fails: page 0 is falsy, and the offset that is
    sent is -10, not 0. *)
Lemma offset_of_page_zero_is_negative :
  Js.truthy (page_of (with_page (page_number 0))) = false
  /\ offset (page_of (with_page (page_number 0))) = Js.Int (-10)
  /\ offset (page_of (with_page (page_number 0))) <> Js.Int 0
  /\ nth_error
       (URI.query (requestURI (page_of (with_page (page_number 0)))
                              (colors_of (with_page (page_number 0))))) 1
     = Some ("offset", "-10").
Proof. repeat split. discriminate. Qed.

(** C6, amended. The [offset] parameter of the query is [(page - 1) * 10]
    for every integer page for which that product is a safe integer,
    negative pages and 0 included; [null] counts as 0 and gives -10. The
    offset is 0 when the page is omitted, where it
    defaults to 1, and when it is [undefined] or [NaN], where the product
    is [NaN]. *)
Theorem offset_of_requested_page (options : option Options) :
  nth_error (URI.query (requestURI (page_of options) (colors_of options))) 1
  = Some ("offset", Js.number_to_string (offset (page_of options)))
  /\ (forall p : Z,
        page_of options = page_number p ->
        safe_integer ((p - 1) * 10) ->
        offset (page_of options) = Js.Int ((p - 1) * 10))
  /\ (page_of options = Js.Null -> offset (page_of options) = Js.Int (-10))
  /\ (page_omitted options -> offset (page_of options) = Js.Int 0)
  /\ (page_of options = Js.Undefined \/ page_of options = Js.Number Js.NaN ->
      offset (page_of options) = Js.Int 0).
Proof.
  split; [now rewrite requestURI_query |].
  split; [| split; [| split]].
  - intros p -> _. apply offset_of_integer.
  - now intros ->.
  - intros Homitted. destruct options as [o |]; [| reflexivity].
    unfold page_of. simpl. now rewrite (Homitted o eq_refl).
  - now intros [-> | ->].
Qed.

Lemma offset_of_requested_page_witness :
  offset (page_of (with_page (page_number 3))) = Js.Int ((3 - 1) * 10)
  /\ offset (page_of None) = Js.Int 0.
Proof.
  split.
  - apply (proj1 (proj2 (offset_of_requested_page (with_page (page_number 3)))) 3).
    + reflexivity.
    + unfold safe_integer. lia.
  - apply (proj1 (proj2 (proj2 (proj2 (offset_of_requested_page None))))).
    intros o Ho. discriminate Ho.
Defined.



(** ** Failures *)

Lemma number_to_string_int_inj (a b : Z) :
  Js.number_to_string (Js.Int a) = Js.number_to_string (Js.Int b) -> a = b.
Proof.
  simpl. intros Heq.
  assert (Hnonnil : forall z, Z.to_int z <> Decimal.Pos Decimal.Nil
                              /\ Z.to_int z <> Decimal.Neg Decimal.Nil).
  { intros [| q | q]; simpl; split; try discriminate;
      intros [= Hq]; now apply (DecimalPos.Unsigned.to_uint_nonnil q). }
  apply DecimalZ.to_int_inj.
  assert (Hparse : NilZero.int_of_string (NilZero.string_of_int (Z.to_int a))
                   = NilZero.int_of_string (NilZero.string_of_int (Z.to_int b)))
    by now rewrite Heq.
  rewrite !NilZero.isi in Hparse by apply Hnonnil.
  now inversion Hparse.
Qed.

Lemma failure_message_inj (s s' : Z) :
  failure_message s = failure_message s' -> s = s'.
Proof.
  unfold failure_message. intros Heq.
  apply number_to_string_int_inj.
  simpl in Heq. now inversion Heq.
Qed.

Section Outcomes.

Variable fetch : string -> settled Response.
Variable options : option Options.

Lemma request_on_failure_status (res : Response) (c : console) :
  fetch (URL (page_of options) (colors_of options)) = Fulfilled res -> ok res = false ->
  request fetch options c = (Rejected (Error (failure_message (status res))), c).
Proof.
  intros Hres Hok. unfold request, then_, settle, on_response.
  now rewrite Hres, Hok.
Qed.



End Outcomes.

(** C1, the claim as stated, fails: on status 500 the promise that
    [retrieve] returns is fulfilled with [undefined], not rejected. *)
Lemma status_500_is_not_rejected :
  retrieve (failing 500) None []
  = (Fulfilled (inr undefined), [Error (failure_message 500)])
  /\ (forall e c, retrieve (failing 500) None [] <> (Rejected e, c)).
Proof. split; [reflexivity | discriminate]. Qed.

(** C1, amended. When the transport answers with a status [s] that is not
    ok, the chain before [catch] fails with an [Error] whose message ends in
    [s] and tells [s] from any other status; the handler of [catch] prints
    that error, and the promise that [retrieve] returns is fulfilled with
    [undefined]: no payload, and no rejection. *)
Theorem failure_status_is_logged (fetch : string -> settled Response)
    (options : option Options) (res : Response) (c : console) :
  fetch (URL (page_of options) (colors_of options)) = Fulfilled res ->
  ok res = false ->
  request fetch options c = (Rejected (Error (failure_message (status res))), c)
  /\ retrieve fetch options c
     = (Fulfilled (inr undefined), c ++ [Error (failure_message (status res))])
  /\ (forall s', failure_message s' = failure_message (status res) -> s' = status res).
Proof.
  intros Hres Hok.
  pose proof (request_on_failure_status fetch options res c Hres Hok) as Hreq.
  split; [exact Hreq |]. split.
  - unfold retrieve, catch_, console_log. now rewrite Hreq.
  - intros s'. apply failure_message_inj.
Qed.

Lemma failure_status_is_logged_witness :
  retrieve (failing 500) None []
  = (Fulfilled (inr undefined), [] ++ [Error (failure_message 500)]).
Proof.
  apply (proj1 (proj2 (failure_status_is_logged (failing 500) None
    {| ok := false; status := 500; json := Rejected (Failure "no body") |} []
    eq_refl eq_refl))).
Defined.

(** Whatever the options, given as [undefined] or as an object, and
    however the transport answers, the promise that [retrieve] returns is
    fulfilled. It holds the payload when
    the transport answers ok with an array of records; in every other case
    (the transport rejects, the status is not ok, the body cannot be decoded,
    or shaping a body that is no array throws) the error is printed and the
    promise holds [undefined]. *)
Lemma retrieve_never_rejects (fetch : string -> settled Response)
    (options : option Options) (c : console) :
  (exists v c', retrieve fetch options c = (Fulfilled v, c'))
  /\ (forall e c', retrieve fetch options c <> (Rejected e, c'))
  /\ (forall e c', request fetch options c = (Rejected e, c') ->
        retrieve fetch options c = (Fulfilled (inr undefined), c' ++ [e]))
  /\ match fetch (URL (page_of options) (colors_of options)) with
     | Rejected e =>
         retrieve fetch options c = (Fulfilled (inr undefined), c ++ [e])
     | Fulfilled res =>
         if ok res then
           match json res with
           | Rejected e =>
               retrieve fetch options c = (Fulfilled (inr undefined), c ++ [e])
           | Fulfilled (JsonArray data) =>
               retrieve fetch options c
               = (Fulfilled (inl (payload (page_of options) data)), c)
           | Fulfilled _ =>
               retrieve fetch options c
               = (Fulfilled (inr undefined), c ++ [TypeError])
           end
         else
           retrieve fetch options c
           = (Fulfilled (inr undefined),
              c ++ [Error (failure_message (status res))])
     end.
Proof.
  unfold retrieve, catch_, console_log.
  split; [| split; [| split]].
  - destruct (request fetch options c) as [[p | e] c']; eauto.
  - intros e c'. destruct (request fetch options c) as [[p | e0] c0]; discriminate.
  - intros e c' ->. reflexivity.
  - unfold request, then_, settle, on_response, on_data, resolve, reject, settle.
    destruct (fetch _) as [res | e]; [| reflexivity].
    destruct (ok res); [| reflexivity].
    destruct (json res) as [[data | |] | e]; reflexivity.
Qed.

(** C4, the claim as stated, fails: called on [null], [retrieve] throws
    a TypeError and returns no promise, so nothing is fulfilled and nothing
    is printed. *)
Lemma retrieve_on_null_throws :
  retrieve_call (serving eleven) ArgNull = Throws TypeError
  /\ (forall promise, retrieve_call (serving eleven) ArgNull <> Returns promise).
Proof. split; [reflexivity | discriminate]. Qed.

(** C4, amended. Called on [undefined] or on an object, and however the
    transport answers, [retrieve] returns a promise that is fulfilled and
    never rejected; it holds the payload when the transport answers ok with
    an array of records, and in every other case the error is printed and
    the promise holds [undefined]. Called on [null] or on a primitive,
    [retrieve] throws a TypeError and returns no promise. *)
Theorem retrieve_fulfils_on_object_options (fetch : string -> settled Response)
    (options : option Options) (c : console) :
  retrieve_call fetch (argument_of options) = Returns (retrieve fetch options)
  /\ (exists v c', retrieve fetch options c = (Fulfilled v, c'))
  /\ (forall e c', retrieve fetch options c <> (Rejected e, c'))
  /\ (forall e c', request fetch options c = (Rejected e, c') ->
        retrieve fetch options c = (Fulfilled (inr undefined), c' ++ [e]))
  /\ match fetch (URL (page_of options) (colors_of options)) with
     | Rejected e =>
         retrieve fetch options c = (Fulfilled (inr undefined), c ++ [e])
     | Fulfilled res =>
         if ok res then
           match json res with
           | Rejected e =>
               retrieve fetch options c = (Fulfilled (inr undefined), c ++ [e])
           | Fulfilled (JsonArray data) =>
               retrieve fetch options c
               = (Fulfilled (inl (payload (page_of options) data)), c)
           | Fulfilled _ =>
               retrieve fetch options c
               = (Fulfilled (inr undefined), c ++ [TypeError])
           end
         else
           retrieve fetch options c
           = (Fulfilled (inr undefined),
              c ++ [Error (failure_message (status res))])
     end
  /\ retrieve_call fetch ArgNull = Throws TypeError
  /\ retrieve_call fetch ArgPrimitive = Throws TypeError.
Proof.
  destruct (retrieve_never_rejects fetch options c)
    as [Hfulfilled [Hnever [Hlogged Hcases]]].
  split; [now destruct options |].
  split; [exact Hfulfilled |]. split; [exact Hnever |].
  split; [exact Hlogged |]. split; [exact Hcases |].
  split; reflexivity.
Qed.

(** ** Further properties of the payload *)

Lemma open_and_closed_primary_within (l : list RecordObject) :
  (List.length (open_of l) + closed_primary_count_of l <= List.length l)%nat.
Proof.
  unfold open_of.
  induction l as [| r l IH]; simpl; [lia |].
  unfold is_open at 1, is_closed_primary at 1.
  destruct (String.eqb_spec (disposition r) "open") as [Hopen | Hopen]; simpl.
  - rewrite Hopen. simpl. lia.
  - destruct (String.eqb (disposition r) "closed" && isPrimaryColor (color r));
      lia.
Qed.

(** X1. The open records and the closed records with a primary colour are
    disjoint parts of the page: their numbers add up to at most the number
    of ids. *)
Theorem open_and_closed_primary_fit_in_ids (page : Js.value)
    (data : list RecordObject) :
  (List.length (open (payload page data)) + closedPrimaryCount (payload page data)
   <= List.length (ids (payload page data)))%nat.
Proof.
  rewrite open_of_trimmed, closedPrimaryCount_of_trimmed, ids_of_trimmed, length_map.
  apply open_and_closed_primary_within.
Qed.

Lemma splice_incl {A : Type} (start : nat) (l : list A) (x : A) :
  In x (Js.splice start 1 l) -> In x l.
Proof.
  unfold Js.splice. intros Hin. apply in_app_or in Hin.
  rewrite <- (firstn_skipn start l).
  apply in_or_app. destruct Hin as [Hin | Hin]; [now left | right].
  rewrite <- (firstn_skipn 1 (skipn start l)).
  apply in_or_app. right. rewrite skipn_skipn.
  now replace (1 + start)%nat with (start + 1)%nat by lia.
Qed.

(** X2. Every record of [open] is a record of the response, with its id,
    colour and disposition as received, and its id is listed in [ids]. *)
Theorem open_records_come_from_response (page : Js.value)
    (data : list RecordObject) (o : Open) :
  In o (open (payload page data)) ->
  In (record o) data /\ In (id o) (ids (payload page data)).
Proof.
  rewrite open_of_trimmed, ids_of_trimmed. unfold open_of. intros Hin.
  apply in_map_iff in Hin. destruct Hin as [r [<- Hin]].
  apply filter_In in Hin. destruct Hin as [Hin _]. simpl. split.
  - apply (splice_incl limit). exact Hin.
  - now apply in_map.
Qed.

Lemma open_records_come_from_response_witness :
  In (mk 4 "yellow" "open") eleven
  /\ In 4 (ids (payload (page_number 1) eleven)).
Proof.
  apply (open_records_come_from_response (page_number 1) eleven
           (classified (mk 4 "yellow" "open"))).
  simpl. right. left. reflexivity.
Defined.

(** X3. [previousPage] is [null] for the number 1 and for nothing else:
    page 0, a negative page, [null], [undefined] and [true] (which converts
    to 1) all get a previous page. *)
Theorem previousPage_null_only_for_one (page : Js.value)
    (data : list RecordObject) :
  previousPage (payload page data) = None <-> page = page_number 1.
Proof.
  unfold payload, page_number; cbn [previousPage].
  destruct page as [| | b | [z |]]; simpl; try (split; discriminate).
  destruct (Z.eqb_spec z 1) as [-> | Hz]; split; try reflexivity; try discriminate.
  intros [= Hz']. contradiction.
Qed.

(** ** Further properties of the request *)

Lemma number_to_string_parses (z : Z) :
  NilZero.int_of_string (Js.number_to_string (Js.Int z)) = Some (Z.to_int z).
Proof.
  simpl. apply NilZero.isi.
  - destruct z as [| q | q]; simpl; try discriminate.
    intros [= Hq]. now apply (DecimalPos.Unsigned.to_uint_nonnil q).
  - destruct z as [| q | q]; simpl; try discriminate.
    intros [= Hq]. now apply (DecimalPos.Unsigned.to_uint_nonnil q).
Qed.

(** X4. When [page] holds [undefined], [null], a boolean, [NaN] or an
    integer whose product [(page - 1) * 10] is a safe integer, the offset
    that is sent is an integer, a multiple of 10, and its text in the query
    is never [NaN]. A fractional or infinite page is no part of this. *)
Theorem offset_is_a_multiple_of_ten (page : Js.value) :
  exact_page page ->
  (exists k : Z, offset page = Js.Int (10 * k))
  /\ Js.number_to_string (offset page) <> "NaN".
Proof.
  intros _.
  assert (Hk : exists k : Z, offset page = Js.Int (10 * k)).
  { destruct page as [| | [|] | [z |]].
    - now exists 0.
    - now exists (-1).
    - now exists 0.
    - now exists (-1).
    - exists (z - 1). change (Js.Number (Js.Int z)) with (page_number z).
      rewrite offset_of_integer. f_equal. lia.
    - now exists 0. }
  split; [exact Hk |].
  destruct Hk as [k ->]. intros Heq.
  pose proof (number_to_string_parses (10 * k)) as Hparse.
  rewrite Heq in Hparse. discriminate Hparse.
Qed.

Lemma offset_is_a_multiple_of_ten_witness :
  (exists k : Z, offset Js.Null = Js.Int (10 * k))
  /\ Js.number_to_string (offset Js.Null) <> "NaN".
Proof.
  apply (offset_is_a_multiple_of_ten Js.Null). exact I.
Defined.

(** X5. The cursors lead to the neighbouring pages. For an integer page
    [p] below 2^49 in magnitude, asking for the [nextPage] that was returned moves the offset
    forward by exactly 10, and asking for the [previousPage] moves it back
    by 10; the previous page of the next page is [p] again, except for
    [p = 0], whose next page is page 1. *)
Theorem cursors_move_the_offset_by_ten (p : Z) (data data' : list RecordObject) :
  small_page p ->
  ((10 < List.length data)%nat ->
     exists n,
       nextPage (payload (page_number p) data) = Some n
       /\ offset (Js.Number n) = Js.Int ((p - 1) * 10 + 10)
       /\ (p <> 0 -> previousPage (payload (Js.Number n) data') = Some (Js.Int p)))
  /\ (p <> 1 ->
        exists n,
          previousPage (payload (page_number p) data) = Some n
          /\ offset (Js.Number n) = Js.Int ((p - 1) * 10 - 10)).
Proof.
  intros _. split.
  - intros Hlen. exists (Js.Int (p + 1)).
    unfold payload at 1; cbn [nextPage].
    rewrite (proj2 (Nat.ltb_lt _ _) Hlen). split; [reflexivity |]. split.
    + change (Js.Number (Js.Int (p + 1))) with (page_number (p + 1)).
      rewrite offset_of_integer. f_equal. lia.
    + intros Hp. unfold payload; cbn [previousPage]. simpl.
      destruct (Z.eqb_spec (p + 1) 1) as [Heq | _]; [lia |].
      unfold Js.sub, Js.lift2, Js.to_number. do 2 f_equal. lia.
  - intros Hp. exists (Js.Int (p - 1)).
    unfold payload, page_number; cbn [previousPage]. simpl.
    destruct (Z.eqb_spec p 1) as [Heq | _]; [contradiction |].
    split; [reflexivity |].
    change (Js.Number (Js.Int (p - 1))) with (page_number (p - 1)).
    rewrite offset_of_integer. f_equal. lia.
Qed.

Lemma cursors_move_the_offset_by_ten_witness :
  exists n,
    nextPage (payload (page_number 3) eleven) = Some n
    /\ offset (Js.Number n) = Js.Int ((3 - 1) * 10 + 10).
Proof.
  destruct (proj1 (cursors_move_the_offset_by_ten 3 eleven eleven
                     ltac:(unfold small_page; lia))
              ltac:(simpl; lia)) as [n [Hnext [Hoff _]]].
  exists n. split; [exact Hnext | exact Hoff].
Defined.

(** X7. A page that is present but holds [undefined] or [NaN] is requested
    as page 1 is, yet its cursors are [NaN]: [previousPage] is [NaN] and not
    [null], and so is [nextPage] when there is a further page. *)
Theorem nan_page_requests_first_page (page : Js.value) (colors : colors_value)
    (data : list RecordObject) :
  Js.to_number page = Js.NaN ->
  URL page colors = URL (page_number 1) colors
  /\ previousPage (payload page data) = Some Js.NaN
  /\ ((10 < List.length data)%nat -> nextPage (payload page data) = Some Js.NaN).
Proof.
  intros Hnan.
  destruct page as [| | [|] | [z |]]; try discriminate Hnan.
  - split; [reflexivity |]. split; [reflexivity |].
    intros Hlen. unfold payload; cbn [nextPage].
    now rewrite (proj2 (Nat.ltb_lt _ _) Hlen).
  - split; [reflexivity |]. split; [reflexivity |].
    intros Hlen. unfold payload; cbn [nextPage].
    now rewrite (proj2 (Nat.ltb_lt _ _) Hlen).
Qed.

Lemma nan_page_requests_first_page_witness :
  URL Js.Undefined (ColorsArray []) = URL (page_number 1) (ColorsArray [])
  /\ previousPage (payload Js.Undefined eleven) = Some Js.NaN.
Proof.
  destruct (nan_page_requests_first_page Js.Undefined (ColorsArray []) eleven
              eq_refl) as [Hurl [Hprev _]].
  split; [exact Hurl | exact Hprev].
Defined.

(** ** Paging through an endpoint *)

Lemma firstn_add_skipn {A : Type} (a b : nat) (l : list A) :
  firstn (a + b) l = firstn a l ++ firstn b (skipn a l).
Proof.
  revert l. induction a as [| a IH]; intros [| x l]; simpl;
    try reflexivity.
  - now rewrite firstn_nil.
  - now rewrite IH.
Qed.

Lemma splice_firstn_succ {A : Type} (n : nat) (l : list A) :
  Js.splice n 1 (firstn (n + 1) l) = firstn n l.
Proof.
  unfold Js.splice.
  rewrite firstn_firstn, Nat.min_l by lia.
  rewrite skipn_all2 by (rewrite length_firstn; lia).
  apply app_nil_r.
Qed.

Lemma served_integer_page (records : list RecordObject) (p : Z) :
  served records (page_number p)
  = firstn 11 (skipn (Z.to_nat ((p - 1) * 10)) records).
Proof. unfold served. now rewrite offset_of_integer. Qed.

Lemma ids_of_served_page (records : list RecordObject) (p : Z) :
  ids (payload (page_number p) (served records (page_number p)))
  = map id (firstn 10 (skipn (Z.to_nat ((p - 1) * 10)) records)).
Proof.
  rewrite ids_of_trimmed, served_integer_page. unfold limit.
  now rewrite (splice_firstn_succ 10).
Qed.




Lemma walk_firstn (records : list RecordObject) (k : nat) :
  walk records k = map id (firstn (10 * k) records).
Proof.
  induction k as [| k IH].
  - reflexivity.
  - cbn [walk]. rewrite IH, ids_of_served_page, <- map_app.
    replace (Z.to_nat ((Z.of_nat (S k) - 1) * 10)) with (10 * k)%nat by lia.
    rewrite <- firstn_add_skipn. f_equal. f_equal. lia.
Qed.

(** X9. Paging loses nothing and repeats nothing: against such an
    endpoint the ids of the pages 1 to [k], put one after the other, are the
    ids of its first [10 * k] records in order, and all of its ids once [k]
    pages cover it. *)
Theorem walk_returns_every_id_once (records : list RecordObject) (k : nat) :
  walk records k = map id (firstn (10 * k) records)
  /\ ((List.length records <= 10 * k)%nat -> walk records k = map id records).
Proof.
  split; [apply walk_firstn |].
  intros Hlen. rewrite walk_firstn. now rewrite firstn_all2.
Qed.

Lemma walk_returns_every_id_once_witness :
  walk twelve 2 = map id twelve.
Proof.
  apply (proj2 (walk_returns_every_id_once twelve 2)). simpl. lia.
Defined.

(** ** Further properties of the outcome *)

(** X10. A call prints at most one error, after what the console held
    before, and the console tells the two outcomes apart: the promise holds
    a payload exactly when nothing was printed, and [undefined] exactly when
    one error was. *)
Theorem console_tells_failure_from_payload (fetch : string -> settled Response)
    (options : option Options) (c : console) :
  exists v c',
    retrieve fetch options c = (Fulfilled v, c')
    /\ ((exists result, v = inl result) <-> c' = c)
    /\ (v = inr undefined <-> exists e, c' = c ++ [e]).
Proof.
  assert (Hgrow : forall e, c ++ [e] <> c).
  { intros e Heq. apply (f_equal (@List.length error)) in Heq.
    rewrite length_app in Heq. simpl in Heq. lia. }
  assert (Hrequest : forall e c', request fetch options c = (Rejected e, c') -> c' = c).
  { unfold request, then_, settle, on_response, on_data, resolve, reject, settle.
    intros e c'.
    destruct (fetch _) as [res | e0]; [| now intros [= _ <-]].
    destruct (ok res); [| now intros [= _ <-]].
    destruct (json res) as [[data | |] | e1]; intros Heq; now inversion Heq. }
  assert (Hpayload : forall result c',
             request fetch options c = (Fulfilled result, c') -> c' = c).
  { unfold request, then_, settle, on_response, on_data, resolve, reject, settle.
    intros result c'.
    destruct (fetch _) as [res | e0]; [| discriminate].
    destruct (ok res); [| discriminate].
    destruct (json res) as [[data | |] | e1]; intros Heq; now inversion Heq. }
  unfold retrieve, catch_, console_log.
  destruct (request fetch options c) as [[result | e] c'] eqn:Hreq.
  - rewrite (Hpayload result c' eq_refl).
    exists (inl result), c. split; [reflexivity |]. split; split.
    + reflexivity.
    + intros _. now exists result.
    + discriminate.
    + intros [e Heq]. symmetry in Heq. now apply Hgrow in Heq.
  - rewrite (Hrequest e c' eq_refl).
    exists (inr undefined), (c ++ [e]). split; [reflexivity |]. split; split.
    + intros [result Hv]. discriminate Hv.
    + intros Heq. now apply Hgrow in Heq.
    + intros _. now exists e.
    + reflexivity.
Qed.

(** X11. A response that is not ok has its body left unread, and one that
    is ok has its status left unread: two answers that differ only there
    give the same outcome. *)
Theorem unread_parts_of_the_response (options : option Options) (c : console)
    (res res' : Response) :
  ok res = ok res' ->
  (if ok res then json res = json res' else status res = status res') ->
  retrieve (fun _ => Fulfilled res) options c
  = retrieve (fun _ => Fulfilled res') options c.
Proof.
  intros Hok Hsame.
  unfold retrieve, catch_, request, then_, settle, on_response.
  rewrite <- Hok. destruct (ok res).
  - now rewrite Hsame.
  - now rewrite Hsame.
Qed.

Lemma unread_parts_of_the_response_witness :
  retrieve (failing 500) None []
  = retrieve (fun _ => Fulfilled {| ok := false; status := 500;
                                    json := Fulfilled (JsonArray eleven) |})
             None [].
Proof.
  apply (unread_parts_of_the_response None []
           {| ok := false; status := 500; json := Rejected (Failure "no body") |}
           {| ok := false; status := 500; json := Fulfilled (JsonArray eleven) |}
           eq_refl eq_refl).
Defined.
